(** * PyGamePlayer: interception of pygame entry points and the fixed-FPS clock

    A shallow embedding of [pygame_player.py].  The module-level slots of
    pygame that the session patches are a record of function references,
    the session object is a record of its attributes, and every method is a
    computation in a state-and-exception monad over the interpreter state.
    Python floats are IEEE binary64 numbers, modelled by primitive floats. *)

From Stdlib Require Import ZArith List Bool String Lia QArith.
From Stdlib Require Import PrimFloat FloatOps SpecFloat.
Import ListNotations.

Set Warnings "-register-all".
Local Open Scope Z_scope.

(** ** Exceptions and results *)

Inductive exn : Type :=
| PyException (msg : string)      (* raise Exception("...") *)
| NotImplementedError (msg : string)
| TypeError
| ZeroDivisionError
| OverflowError
| ValueError
| HostError (msg : string).       (* anything the host library raises *)

Inductive result (A : Type) : Type :=
| Ok (a : A)
| Raise (e : exn).

Arguments Ok {A} a.
Arguments Raise {A} e.

Definition is_ok {A} (r : result A) : bool :=
  match r with Ok _ => true | Raise _ => false end.

(** ** The state-and-exception monad

    A Python call returns a value or raises, and in both cases keeps the
    mutations it made before.  *)

Definition M (St A : Type) : Type := St -> result A * St.

Definition ret {St A} (a : A) : M St A := fun st => (Ok a, st).

Definition raise {St A} (e : exn) : M St A := fun st => (Raise e, st).

Definition bind {St A B} (m : M St A) (k : A -> M St B) : M St B :=
  fun st =>
    match m st with
    | (Ok a, st') => k a st'
    | (Raise e, st') => (Raise e, st')
    end.

Definition get {St} : M St St := fun st => (Ok st, st).

Definition put {St} (st : St) : M St unit := fun _ => (Ok tt, st).

Definition lift_result {St A} (r : result A) : M St A := fun st => (r, st).

Declare Scope py_scope.
Delimit Scope py_scope with py.
Notation "x <- m ;; k" := (bind m (fun x => k))
  (at level 61, m at next level, right associativity) : py_scope.
Notation "m ;; k" := (bind m (fun _ => k))
  (at level 61, right associativity) : py_scope.

(** ** Python numbers *)

(** [a / b] on floats: CPython raises on a zero divisor and otherwise
    returns the rounded quotient (possibly an infinity or a NaN). *)
Definition py_truediv (a b : float) : result float :=
  if PrimFloat.eqb b 0%float then Raise ZeroDivisionError
  else Ok (PrimFloat.div a b).

(** [int(x)] on a float truncates toward zero. *)
Definition py_int (x : float) : result Z :=
  match Prim2SF x with
  | S754_zero _ => Ok 0
  | S754_infinity _ => Raise OverflowError
  | S754_nan => Raise ValueError
  | S754_finite s m e =>
      let mag := Z.shiftl (Z.pos m) e in
      Ok (if s then - mag else mag)
  end.

(** The rational number a finite float denotes. *)
Definition float_value (x : float) : option Q :=
  match Prim2SF x with
  | S754_zero _ => Some 0%Q
  | S754_finite s m e =>
      let mag := (inject_Z (Z.pos m) * Qpower 2 e)%Q in
      Some (if s then Qopp mag else mag)
  | _ => None
  end.

(** ** Function references

    A module slot holds either a function of the library or a closure made
    by [function_intercept]; every closure is a fresh object, identified by
    its allocation number. *)

Inductive method : Type :=
| m_on_screen_update
| m_on_event_get
| m_on_time_clock
| m_get_game_time_ms
| m_get_ms_per_frame.

Inductive func : Type :=
| Native (name : string)
| Wrap (oid : nat) (intercepted_func : func) (intercepting_func : method).

(** The Python objects of the model: what a caller passes to the
    intercepted functions and what a clock stores. *)
Inductive pyobj : Type :=
| PNone
| PInt (z : Z)
| PFloat (f : float)
| PSeq (items : list pyobj)
| PBound (m : method).

(** [o == c] for an integer constant [c]: numbers compare by value, and
    nothing else equals an integer. *)
Definition eq_int (o : pyobj) (c : Z) : bool :=
  match o with
  | PInt z => Z.eqb z c
  | PFloat f =>
      match float_value f with
      | Some q => Qeq_bool q (inject_Z c)
      | None => false
      end
  | _ => false
  end.

(** [pygame.event.Event(type, {"key": key})] *)
Record Event : Type := mkEvent { etype : Z; key : Z }.

(** ** The patched module slots and the session object *)

Record Pygame : Type := mkPygame {
  display_flip : func;
  display_update : func;
  event_get : func;
  time_Clock : func;
  time_get_ticks : func
}.

Record PyGamePlayer : Type := mkPlayer {
  desired_fps : float;
  _keys_pressed : list Z;
  _last_keys_pressed : list Z;
  _playing : bool;
  _default_flip : func;
  _default_update : func;
  _default_event_get : func;
  _default_time_clock : func;
  _default_get_ticks : func;
  _game_time : float
}.

Definition __init__ (fps : float) (pg : Pygame) : PyGamePlayer :=
  {| desired_fps := fps;
     _keys_pressed := [];
     _last_keys_pressed := [];
     _playing := false;
     _default_flip := display_flip pg;
     _default_update := display_update pg;
     _default_event_get := event_get pg;
     _default_time_clock := time_Clock pg;
     _default_get_ticks := time_get_ticks pg;
     _game_time := 0%float |}.


Definition save_defaults (pg : Pygame) (s : PyGamePlayer) : PyGamePlayer :=
  {| desired_fps := desired_fps s;
     _keys_pressed := _keys_pressed s;
     _last_keys_pressed := _last_keys_pressed s;
     _playing := _playing s;
     _default_flip := display_flip pg;
     _default_update := display_update pg;
     _default_event_get := event_get pg;
     _default_time_clock := time_Clock pg;
     _default_get_ticks := time_get_ticks pg;
     _game_time := _game_time s |}.

Definition with_playing (b : bool) (s : PyGamePlayer) : PyGamePlayer :=
  {| desired_fps := desired_fps s;
     _keys_pressed := _keys_pressed s;
     _last_keys_pressed := _last_keys_pressed s;
     _playing := b;
     _default_flip := _default_flip s;
     _default_update := _default_update s;
     _default_event_get := _default_event_get s;
     _default_time_clock := _default_time_clock s;
     _default_get_ticks := _default_get_ticks s;
     _game_time := _game_time s |}.

Definition with_keys (keys last : list Z) (s : PyGamePlayer) : PyGamePlayer :=
  {| desired_fps := desired_fps s;
     _keys_pressed := keys;
     _last_keys_pressed := last;
     _playing := _playing s;
     _default_flip := _default_flip s;
     _default_update := _default_update s;
     _default_event_get := _default_event_get s;
     _default_time_clock := _default_time_clock s;
     _default_get_ticks := _default_get_ticks s;
     _game_time := _game_time s |}.

Definition with_game_time (t : float) (s : PyGamePlayer) : PyGamePlayer :=
  {| desired_fps := desired_fps s;
     _keys_pressed := _keys_pressed s;
     _last_keys_pressed := _last_keys_pressed s;
     _playing := _playing s;
     _default_flip := _default_flip s;
     _default_update := _default_update s;
     _default_event_get := _default_event_get s;
     _default_time_clock := _default_time_clock s;
     _default_get_ticks := _default_get_ticks s;
     _game_time := t |}.

(** The five saved references of a session, as a slot record. *)
Definition saved (s : PyGamePlayer) : Pygame :=
  {| display_flip := _default_flip s;
     display_update := _default_update s;
     event_get := _default_event_get s;
     time_Clock := _default_time_clock s;
     time_get_ticks := _default_get_ticks s |}.

(** ** The synthetic clock and the values the entry points return *)

Record FixedFPSClock : Type := mkClock {
  _get_ms_per_frame_func : pyobj;
  _get_time_ms_func : pyobj
}.

Inductive value : Type :=
| VObj (o : pyobj)
| VEvents (events : list Event)
| VClock (c : FixedFPSClock)
| VOpaque (tag : nat).            (* a result of the library itself *)

(** ** Event synthesis: [_on_event_get]

    The event-type constants come from [pygame.constants]. *)

Section Events.

Variables QUIT KEYDOWN KEYUP : Z.

(** [x in l] on a list of integers *)
Definition py_in (x : Z) (l : list Z) : bool := existsb (Z.eqb x) l.

Definition key_down_events (s : PyGamePlayer) : list Event :=
  map (fun x => mkEvent KEYDOWN x)
      (filter (fun x => negb (py_in x (_last_keys_pressed s))) (_keys_pressed s)).

Definition key_up_events (s : PyGamePlayer) : list Event :=
  map (fun x => mkEvent KEYUP x)
      (filter (fun x => negb (py_in x (_keys_pressed s))) (_last_keys_pressed s)).

(** One round of the loop over the type filters. *)
Definition filter_step (s : PyGamePlayer) (result : list Event) (type_filter : pyobj)
  : list Event :=
  if eq_int type_filter QUIT then result
  else if eq_int type_filter KEYUP then result ++ key_up_events s
  else if eq_int type_filter KEYDOWN then result ++ key_down_events s
  else result.

(** [args] are the positional arguments after the discarded real result;
    keyword arguments are accepted and never read.  Of the objects of the
    model only a sequence has [__iter__]. *)
Definition _on_event_get (s : PyGamePlayer) (args : list pyobj) : list Event :=
  match args with
  | [] => key_down_events s ++ key_up_events s
  | a0 :: _ =>
      let args' := match a0 with PSeq items => items | _ => args end in
      fold_left (filter_step s) args' []
  end.

End Events.

(** ** The interpreter state and the session's methods

    [Host] is the state of the library itself (display, real event queue,
    wall clock) and [Agent] the state of the subclass that overrides the two
    callbacks.  *)

Section Player.

Context {Agent Host Frame Feedback : Type}.

Variables QUIT KEYDOWN KEYUP : Z.

(** The library's own functions, by name. *)
Variable native : string -> list pyobj -> M Host value.

(** [pygame.surfarray.array3d(pygame.display.get_surface())] *)
Variable array3d : Host -> result Frame.

(** The overridden callbacks of the subclass. *)
Variable get_feedback : M Agent Feedback.
Variable get_keys_pressed : Frame -> Feedback -> M Agent (list Z).

Record World : Type := mkWorld {
  self : PyGamePlayer;
  pygame : Pygame;
  next_oid : nat;
  agent : Agent;
  host : Host
}.

Definition modify_self (f : PyGamePlayer -> PyGamePlayer) : M World unit :=
  fun w => (Ok tt, mkWorld (f (self w)) (pygame w) (next_oid w) (agent w) (host w)).

Definition set_pygame (pg : Pygame) : M World unit :=
  fun w => (Ok tt, mkWorld (self w) pg (next_oid w) (agent w) (host w)).

Definition on_agent {A} (m : M Agent A) : M World A :=
  fun w => let (r, a) := m (agent w) in
           (r, mkWorld (self w) (pygame w) (next_oid w) a (host w)).

Definition on_host {A} (m : M Host A) : M World A :=
  fun w => let (r, h) := m (host w) in
           (r, mkWorld (self w) (pygame w) (next_oid w) (agent w) h).

Local Open Scope py_scope.

(** [function_intercept]: the closure [wrap] is a new object; what it does
    when called is [invoke] below. *)
Definition function_intercept (intercepted_func : func) (intercepting_func : method)
  : M World func :=
  fun w => (Ok (Wrap (next_oid w) intercepted_func intercepting_func),
            mkWorld (self w) (pygame w) (S (next_oid w)) (agent w) (host w)).

Definition start : M World unit :=
  w <- get ;;
  if _playing (self w) then raise (PyException "Already playing")
  else
    modify_self (save_defaults (pygame w)) ;;
    flip <- function_intercept (display_flip (pygame w)) m_on_screen_update ;;
    set_pygame (mkPygame flip (display_update (pygame w)) (event_get (pygame w))
                         (time_Clock (pygame w)) (time_get_ticks (pygame w))) ;;
    update <- function_intercept (display_update (pygame w)) m_on_screen_update ;;
    set_pygame (mkPygame flip update (event_get (pygame w))
                         (time_Clock (pygame w)) (time_get_ticks (pygame w))) ;;
    eget <- function_intercept (event_get (pygame w)) m_on_event_get ;;
    set_pygame (mkPygame flip update eget
                         (time_Clock (pygame w)) (time_get_ticks (pygame w))) ;;
    clock <- function_intercept (time_Clock (pygame w)) m_on_time_clock ;;
    set_pygame (mkPygame flip update eget clock (time_get_ticks (pygame w))) ;;
    ticks <- function_intercept (time_get_ticks (pygame w)) m_get_game_time_ms ;;
    set_pygame (mkPygame flip update eget clock ticks) ;;
    modify_self (with_playing true).

Definition stop : M World unit :=
  w <- get ;;
  if negb (_playing (self w)) then raise (PyException "Already stopped")
  else
    set_pygame (saved (self w)) ;;
    modify_self (with_playing false).

Definition _get_ms_per_frame : M World float :=
  w <- get ;; lift_result (py_truediv 1000%float (desired_fps (self w))).

Definition _get_game_time_ms : M World float :=
  w <- get ;; ret (_game_time (self w)).

(** The second constructor argument is the attribute [self._game_time]
    itself, a float, where the first is a bound method. *)
Definition _on_time_clock : M World FixedFPSClock :=
  w <- get ;;
  ret (mkClock (PBound m_get_ms_per_frame) (PFloat (_game_time (self w)))).

Definition _on_screen_update : M World unit :=
  surface_array <- (fun w => (array3d (host w), w)) ;;
  reward <- on_agent get_feedback ;;
  keys <- on_agent (get_keys_pressed surface_array reward) ;;
  modify_self (fun s => with_keys keys (_keys_pressed s) s) ;;
  t <- _get_game_time_ms ;;
  ms <- _get_ms_per_frame ;;
  modify_self (with_game_time (PrimFloat.add t ms)).

(** The [playing] property. *)
Definition playing : M World bool :=
  w <- get ;; ret (_playing (self w)).

Definition playing_setter (value : bool) : M World unit :=
  w <- get ;;
  if Bool.eqb (_playing (self w)) value then ret tt
  else if _playing (self w) then stop
  else start.

Definition __enter__ : M World unit := start.

Definition __exit__ (exc : option exn) : M World unit := stop.

(** *** Calling Python objects *)

(** [o()] for an object stored in a clock. *)
Definition call0 (o : pyobj) : M World float :=
  match o with
  | PBound m_get_ms_per_frame => _get_ms_per_frame
  | PBound m_get_game_time_ms => _get_game_time_ms
  | _ => raise TypeError
  end.

(** [intercepting_func(real_results, args...)] for a bound method of the
    session.  The two getters take no argument besides [self]. *)
Definition call_bound (m : method) (real_results : value) (args : list pyobj)
  : M World value :=
  match m with
  | m_on_screen_update => _on_screen_update ;; ret (VObj PNone)
  | m_on_event_get =>
      w <- get ;; ret (VEvents (_on_event_get QUIT KEYDOWN KEYUP (self w) args))
  | m_on_time_clock => c <- _on_time_clock ;; ret (VClock c)
  | m_get_game_time_ms => raise TypeError
  | m_get_ms_per_frame => raise TypeError
  end.

(** Calling a function reference: the closure [wrap] of [function_intercept]. *)
Fixpoint invoke (f : func) (args : list pyobj) : M World value :=
  match f with
  | Native name => on_host (native name args)
  | Wrap _ intercepted_func intercepting_func =>
      real_results <- invoke intercepted_func args ;;
      call_bound intercepting_func real_results args
  end.

(** The host program calls whatever the module slot holds at that time. *)
Inductive entry : Type := Flip | Update | EventGet | Clock | GetTicks.

Definition slot (e : entry) (pg : Pygame) : func :=
  match e with
  | Flip => display_flip pg
  | Update => display_update pg
  | EventGet => event_get pg
  | Clock => time_Clock pg
  | GetTicks => time_get_ticks pg
  end.

Definition call_entry (e : entry) (args : list pyobj) : M World value :=
  w <- get ;; invoke (slot e (pygame w)) args.

(** A run of host calls; a call that raises is caught by the host and
    the run goes on. *)
Fixpoint host_calls (cs : list (entry * list pyobj)) (w : World) : World :=
  match cs with
  | [] => w
  | (e, args) :: cs' => host_calls cs' (snd (call_entry e args w))
  end.

(** *** The synthetic clock *)

Definition tick (c : FixedFPSClock) : M World float :=
  call0 (_get_ms_per_frame_func c).

Definition tick_busy_loop (c : FixedFPSClock) : M World float :=
  call0 (_get_ms_per_frame_func c).

Definition get_time (c : FixedFPSClock) : M World float :=
  call0 (_get_time_ms_func c).

Definition get_raw_time (c : FixedFPSClock) : M World float :=
  call0 (_get_time_ms_func c).

Definition get_fps (c : FixedFPSClock) : M World Z :=
  ms <- call0 (_get_ms_per_frame_func c) ;;
  q <- lift_result (py_truediv 1%float ms) ;;
  lift_result (py_int q).

(** *** Runs *)

(** [n] invocations of the frame handler. *)
Fixpoint frames (n : nat) : M World unit :=
  match n with
  | O => ret tt
  | S k => _on_screen_update ;; frames k
  end.

(** A sequence of direct [start()]/[stop()] calls, each result recorded. *)
Inductive lifecycle_call : Type := CallStart | CallStop.

Definition do_call (c : lifecycle_call) : M World unit :=
  match c with CallStart => start | CallStop => stop end.

Fixpoint run_calls (cs : list lifecycle_call) (w : World)
  : list (result unit) * World :=
  match cs with
  | [] => ([], w)
  | c :: cs' =>
      let (r, w') := do_call c w in
      let (rs, w'') := run_calls cs' w' in
      (r :: rs, w'')
  end.

(** *** The [with] statement

    [with player: body] calls [__enter__], runs the body, and calls
    [__exit__] with the exception of the body, if any.  [__exit__]
    returns [None], so that exception goes on to the caller; an
    exception of [__exit__] itself replaces it.  The trace records the
    calls made to the context manager. *)
Inductive cm_call : Type := CallEnter | CallExit (exc : option exn).

Definition with_stmt (body : M World unit) (w : World)
  : (result unit * World) * list cm_call :=
  match __enter__ w with
  | (Raise e, w1) => ((Raise e, w1), [CallEnter])
  | (Ok _, w1) =>
      let (r, w2) := body w1 in
      let exc := match r with Ok _ => None | Raise e => Some e end in
      match __exit__ exc w2 with
      | (Raise e', w3) => ((Raise e', w3), [CallEnter; CallExit exc])
      | (Ok _, w3) => ((r, w3), [CallEnter; CallExit exc])
      end
  end.

End Player.

Arguments World : clear implicits.

(** ** Specification-side definitions *)

(** What a session shares with the library: its flag, the five saved
    references, and the five module slots. *)
Definition lifecycle {Agent Host} (w : World Agent Host) : bool * Pygame * Pygame :=
  (_playing (self w), saved (self w), pygame w).

(** A computation that leaves the lifecycle alone, whatever it returns. *)
Definition keeps_lifecycle {Agent Host A} (m : M (World Agent Host) A) : Prop :=
  forall w, lifecycle (snd (m w)) = lifecycle w.

(** The results a sequence of direct calls must have, from the flag alone:
    [true] for a call that returns, [false] for one that raises. *)
Fixpoint expected_results (active : bool) (cs : list lifecycle_call) : list bool :=
  match cs with
  | [] => []
  | CallStart :: cs' => negb active :: expected_results true cs'
  | CallStop :: cs' => active :: expected_results false cs'
  end.

(** Set difference by identifier, relative order kept. *)
Fixpoint keys_minus (l1 l2 : list Z) : list Z :=
  match l1 with
  | [] => []
  | x :: l1' =>
      if in_dec Z.eq_dec x l2 then keys_minus l1' l2 else x :: keys_minus l1' l2
  end.

(** The events one type filter selects, in the words of the description:
    released keys for the key-released type, pressed keys for the
    key-pressed type, nothing for anything else (the quit type included). *)
Definition spec_filter_events (KEYDOWN KEYUP : Z) (down up : list Event) (f : Z)
  : list Event :=
  if Z.eq_dec f KEYUP then up
  else if Z.eq_dec f KEYDOWN then down
  else [].

(** [floor(x)] of a float. *)
Definition float_floor (x : float) : result Z :=
  match Prim2SF x with
  | S754_zero _ => Ok 0
  | S754_infinity _ => Raise OverflowError
  | S754_nan => Raise ValueError
  | S754_finite s m e =>
      let mag := Z.shiftl (Z.pos m) e in
      let whole := Z.eqb (Z.shiftl mag (- e)) (Z.pos m) in
      Ok (if s then (if whole then - mag else - mag - 1) else mag)
  end.

(** The frame rate the description promises for the synthetic clock:
    [floor(1000 / interval)] with [interval = 1000 / desired_fps]. *)
Definition spec_get_fps (fps : float) : result Z :=
  match py_truediv 1000%float fps with
  | Raise e => Raise e
  | Ok interval =>
      match py_truediv 1000%float interval with
      | Raise e => Raise e
      | Ok q => float_floor q
      end
  end.

(** The game time the description promises after [n] frames at [fps]
    frames per second, [n * 1000 / fps], as a rational number. *)
Definition spec_game_time (fps : float) (n : nat) : option Q :=
  match float_value fps with
  | Some f => Some (inject_Z (Z.of_nat n) * 1000 / f)%Q
  | None => None
  end.

(** ** A concrete library and subclass, for evaluating the model *)

Definition pristine : Pygame :=
  {| display_flip := Native "pygame.display.flip";
     display_update := Native "pygame.display.update";
     event_get := Native "pygame.event.get";
     time_Clock := Native "pygame.time.Clock";
     time_get_ticks := Native "pygame.time.get_ticks" |}.

Definition demo_native (name : string) (args : list pyobj) : M unit value :=
  ret (VOpaque 0).

Definition demo_array3d (h : unit) : result unit := Ok tt.

Definition demo_get_feedback : M unit Z := ret 0.

(** Holds the down-arrow key ([K_DOWN]) in every frame. *)
Definition demo_get_keys_pressed (frame : unit) (feedback : Z) : M unit (list Z) :=
  ret [274].

Definition demo_world (fps : float) : World unit unit :=
  mkWorld (__init__ fps pristine) pristine 0 tt tt.

Definition demo_frames (n : nat) : M (World unit unit) unit :=
  frames demo_array3d demo_get_feedback demo_get_keys_pressed n.

(** The event types of pygame 1.9. *)
Definition pygame_QUIT : Z := 12.
Definition pygame_KEYDOWN : Z := 2.
Definition pygame_KEYUP : Z := 3.

Definition demo_invoke : func -> list pyobj -> M (World unit unit) value :=
  invoke pygame_QUIT pygame_KEYDOWN pygame_KEYUP
         demo_native demo_array3d demo_get_feedback demo_get_keys_pressed.

Definition demo_host_calls
  : list (entry * list pyobj) -> World unit unit -> World unit unit :=
  host_calls pygame_QUIT pygame_KEYDOWN pygame_KEYUP
             demo_native demo_array3d demo_get_feedback demo_get_keys_pressed.

(** One frame of a game: present, poll for key-down events, ask the time. *)
Definition demo_traffic : list (entry * list pyobj) :=
  [(Flip, []); (EventGet, [PInt pygame_KEYDOWN]); (GetTicks, [])].

(** A scope body that runs two frames and then fails. *)
Definition demo_body : M (World unit unit) unit :=
  fun w => (Raise (HostError "game crashed"), snd (demo_frames 2 w)).

(** ** Further definitions: the base class, runs of mixed calls *)

(** The two callbacks as the base class has them. *)
Definition base_get_feedback {Agent Feedback : Type} : M Agent Feedback :=
  raise (NotImplementedError "Please override this method").

Definition base_get_keys_pressed {Agent Frame Feedback : Type}
  (screen_array : Frame) (feedback : Feedback) : M Agent (list Z) :=
  raise (NotImplementedError "Please override this method").

(** The five closures that [start] installs over the slots [pg], the first
    of them being object number [n]. *)
Definition wrapped (n : nat) (pg : Pygame) : Pygame :=
  {| display_flip := Wrap n (display_flip pg) m_on_screen_update;
     display_update := Wrap (1 + n) (display_update pg) m_on_screen_update;
     event_get := Wrap (2 + n) (event_get pg) m_on_event_get;
     time_Clock := Wrap (3 + n) (time_Clock pg) m_on_time_clock;
     time_get_ticks := Wrap (4 + n) (time_get_ticks pg) m_get_game_time_ms |}.

Definition set_host {Agent Host} (h : Host) (w : World Agent Host) : World Agent Host :=
  mkWorld (self w) (pygame w) (next_oid w) (agent w) h.

Definition set_agent {Agent Host} (a : Agent) (w : World Agent Host) : World Agent Host :=
  mkWorld (self w) (pygame w) (next_oid w) a (host w).

(** One [start()] followed by one [stop()], results dropped. *)
Definition cycle {Agent Host} (w : World Agent Host) : World Agent Host :=
  snd (stop (snd (start w))).

Section Runs.

Context {Agent Host Frame Feedback : Type}.
Variables QUIT KEYDOWN KEYUP : Z.
Variable native : string -> list pyobj -> M Host value.
Variable array3d : Host -> result Frame.
Variable get_feedback : M Agent Feedback.
Variable get_keys_pressed : Frame -> Feedback -> M Agent (list Z).

(** What a program around the session can do to it: call [start()] or
    [stop()], write the [playing] property, or call one of the five module
    slots.  An exception is caught by the caller and the run goes on. *)
Inductive action : Type :=
| DoStart
| DoStop
| SetPlaying (value : bool)
| HostCall (e : entry) (args : list pyobj).

Definition do_action (a : action) (w : World Agent Host) : World Agent Host :=
  match a with
  | DoStart => snd (start w)
  | DoStop => snd (stop w)
  | SetPlaying value => snd (playing_setter value w)
  | HostCall e args =>
      snd (call_entry QUIT KEYDOWN KEYUP native array3d get_feedback get_keys_pressed
                      e args w)
  end.

Definition run_actions (acts : list action) (w : World Agent Host) : World Agent Host :=
  fold_left (fun w' a => do_action a w') acts w.

End Runs.

(** The invariant of the module slots relative to the slots [pg0] of the
    library before the session touched it: an inactive session leaves them
    as they were, an active one has saved them and holds one closure over
    each. *)
Definition slots_consistent {Agent Host} (pg0 : Pygame) (w : World Agent Host) : Prop :=
  if _playing (self w)
  then saved (self w) = pg0 /\ exists n, pygame w = wrapped n pg0
  else pygame w = pg0.

(** A run that starts twice, presents a frame, toggles the property and
    polls. *)
Definition demo_actions : list action :=
  [DoStart; HostCall Flip []; DoStart; SetPlaying false; SetPlaying true;
   HostCall EventGet [PInt pygame_KEYDOWN]].

(** A subclass whose callbacks are those of the base class. *)
Definition base_frame : M (World unit unit) unit :=
  _on_screen_update demo_array3d
    (@base_get_feedback unit Z) (@base_get_keys_pressed unit unit Z).

(** ** Lifecycle: [start], [stop], the [playing] property, [with] *)

Section LifecycleFacts.

Context {Agent Host Frame Feedback : Type}.
Variables QUIT KEYDOWN KEYUP : Z.
Variable native : string -> list pyobj -> M Host value.
Variable array3d : Host -> result Frame.
Variable get_feedback : M Agent Feedback.
Variable get_keys_pressed : Frame -> Feedback -> M Agent (list Z).

Local Abbreviation W := (World Agent Host).
Local Abbreviation invoke' := (invoke QUIT KEYDOWN KEYUP native array3d get_feedback get_keys_pressed).
Local Abbreviation host_calls' :=
  (host_calls QUIT KEYDOWN KEYUP native array3d get_feedback get_keys_pressed).

Lemma start_inactive (w : W) :
  _playing (self w) = false ->
  start w =
    (Ok tt,
     mkWorld (with_playing true (save_defaults (pygame w) (self w)))
             (mkPygame
                (Wrap (next_oid w) (display_flip (pygame w)) m_on_screen_update)
                (Wrap (1 + next_oid w) (display_update (pygame w)) m_on_screen_update)
                (Wrap (2 + next_oid w) (event_get (pygame w)) m_on_event_get)
                (Wrap (3 + next_oid w) (time_Clock (pygame w)) m_on_time_clock)
                (Wrap (4 + next_oid w) (time_get_ticks (pygame w)) m_get_game_time_ms))
             (5 + next_oid w) (agent w) (host w)).
Proof.
  intros H. unfold start, bind, get. rewrite H. reflexivity.
Qed.

Lemma start_active (w : W) :
  _playing (self w) = true ->
  start w = (Raise (PyException "Already playing"), w).
Proof.
  intros H. unfold start, bind, get. rewrite H. reflexivity.
Qed.

Lemma stop_active (w : W) :
  _playing (self w) = true ->
  stop w =
    (Ok tt,
     mkWorld (with_playing false (self w)) (saved (self w))
             (next_oid w) (agent w) (host w)).
Proof.
  intros H. unfold stop, bind, get. rewrite H. reflexivity.
Qed.

Lemma stop_inactive (w : W) :
  _playing (self w) = false ->
  stop w = (Raise (PyException "Already stopped"), w).
Proof.
  intros H. unfold stop, bind, get. rewrite H. reflexivity.
Qed.

(** *** Handlers never touch the lifecycle *)

Lemma keeps_bind {A B} (m : M W A) (k : A -> M W B) :
  keeps_lifecycle m -> (forall a, keeps_lifecycle (k a)) ->
  keeps_lifecycle (bind m k).
Proof.
  intros Hm Hk w. unfold bind. specialize (Hm w).
  destruct (m w) as [[a | e] w1]; cbn in *.
  - rewrite Hk. exact Hm.
  - exact Hm.
Qed.

Lemma keeps_pure {A} (m : M W A) :
  (forall w, snd (m w) = w) -> keeps_lifecycle m.
Proof. intros H w. now rewrite H. Qed.

Lemma keeps_on_agent {A} (m : M Agent A) : keeps_lifecycle (@on_agent Agent Host A m).
Proof. intros w. unfold on_agent. now destruct (m (agent w)). Qed.

Lemma keeps_on_host {A} (m : M Host A) : keeps_lifecycle (@on_host Agent Host A m).
Proof. intros w. unfold on_host. now destruct (m (host w)). Qed.

Lemma keeps_get_ms_per_frame : keeps_lifecycle (@_get_ms_per_frame Agent Host).
Proof. now apply keeps_pure. Qed.

Lemma keeps_on_screen_update :
  keeps_lifecycle (_on_screen_update array3d get_feedback get_keys_pressed).
Proof.
  unfold _on_screen_update.
  apply keeps_bind; [now apply keeps_pure | intros fr].
  apply keeps_bind; [apply keeps_on_agent | intros fb].
  apply keeps_bind; [apply keeps_on_agent | intros ks].
  apply keeps_bind; [now intros w | intros _].
  apply keeps_bind; [now apply keeps_pure | intros t].
  apply keeps_bind; [apply keeps_get_ms_per_frame | intros ms].
  now intros w.
Qed.

Lemma keeps_call_bound m real args :
  keeps_lifecycle
    (call_bound QUIT KEYDOWN KEYUP array3d get_feedback get_keys_pressed m real args).
Proof.
  destruct m; cbn [call_bound].
  - apply keeps_bind; [apply keeps_on_screen_update | intros; now apply keeps_pure].
  - now apply keeps_pure.
  - now apply keeps_pure.
  - now apply keeps_pure.
  - now apply keeps_pure.
Qed.

Lemma keeps_invoke f args : keeps_lifecycle (invoke' f args).
Proof.
  induction f as [name | oid g IH h]; cbn [invoke].
  - apply keeps_on_host.
  - apply keeps_bind; [exact IH | intros; apply keeps_call_bound].
Qed.

Lemma keeps_host_calls cs (w : W) :
  lifecycle (host_calls' cs w) = lifecycle w.
Proof.
  revert w. induction cs as [| [e args] cs IH]; intros w; cbn [host_calls].
  - reflexivity.
  - rewrite IH. unfold call_entry, bind, get. apply keeps_invoke.
Qed.

Lemma keeps_frames n :
  keeps_lifecycle (frames array3d get_feedback get_keys_pressed n).
Proof.
  induction n as [| n IH]; cbn [frames].
  - now apply keeps_pure.
  - apply keeps_bind; [apply keeps_on_screen_update | intros; exact IH].
Qed.

Lemma lifecycle_eq (w w' : W) :
  lifecycle w' = lifecycle w ->
  _playing (self w') = _playing (self w) /\
  saved (self w') = saved (self w) /\
  pygame w' = pygame w.
Proof.
  intros H. split; [| split].
  - exact (f_equal (fun x => fst (fst x)) H).
  - exact (f_equal (fun x => snd (fst x)) H).
  - exact (f_equal snd H).
Qed.

Lemma saved_save_defaults (pg : Pygame) (s : PyGamePlayer) :
  saved (with_playing true (save_defaults pg s)) = pg.
Proof. now destruct pg. Qed.

(** C1: when [start()] succeeds and [stop()] follows, with any number of
    calls of the host program to the five entry points in between, [stop()]
    succeeds and each of the five module slots holds again the very
    reference it held before [start()]; calling a slot then is calling the
    original. *)
Theorem start_stop_restores_entry_points (w : W) (traffic : list (entry * list pyobj)) :
  _playing (self w) = false ->
  exists w1 w3,
    start w = (Ok tt, w1) /\
    stop (host_calls' traffic w1) = (Ok tt, w3) /\
    pygame w3 = pygame w /\
    (forall e, slot e (pygame w3) = slot e (pygame w)) /\
    (forall e args w', invoke' (slot e (pygame w3)) args w'
                       = invoke' (slot e (pygame w)) args w').
Proof.
  intros Hoff.
  exists (snd (start w)).
  exists (snd (stop (host_calls' traffic (snd (start w))))).
  pose proof (keeps_host_calls traffic (snd (start w))) as Hk.
  apply lifecycle_eq in Hk. destruct Hk as (Hplay & Hsaved & _).
  rewrite (start_inactive w Hoff) in *.
  cbn [snd self with_playing _playing] in Hplay, Hsaved.
  rewrite saved_save_defaults in Hsaved.
  cbn [snd].
  rewrite (stop_active _ Hplay).
  cbn [snd pygame]. rewrite Hsaved.
  repeat split; reflexivity.
Qed.

Lemma start_sets_flag (w : W) :
  _playing (self (snd (start w))) = true.
Proof.
  destruct (_playing (self w)) eqn:H.
  - now rewrite (start_active w H).
  - now rewrite (start_inactive w H).
Qed.

Lemma stop_clears_flag (w : W) :
  _playing (self (snd (stop w))) = false.
Proof.
  destruct (_playing (self w)) eqn:H.
  - now rewrite (stop_active w H).
  - now rewrite (stop_inactive w H).
Qed.

Lemma run_calls_expected (cs : list lifecycle_call) :
  forall w : W,
    map is_ok (fst (run_calls cs w)) = expected_results (_playing (self w)) cs.
Proof.
  induction cs as [| c cs IH]; intros w; [reflexivity |].
  cbn [run_calls].
  destruct (do_call c w) as [r w'] eqn:Hc.
  specialize (IH w').
  destruct (run_calls cs w') as [rs w''].
  cbn [fst map] in *. rewrite IH.
  destruct c; cbn [do_call expected_results] in *.
  - pose proof (start_sets_flag w) as Hf. rewrite Hc in Hf. cbn [snd] in Hf.
    rewrite Hf. f_equal.
    destruct (_playing (self w)) eqn:H.
    + rewrite (start_active w H) in Hc. now inversion Hc.
    + rewrite (start_inactive w H) in Hc. now inversion Hc.
  - pose proof (stop_clears_flag w) as Hf. rewrite Hc in Hf. cbn [snd] in Hf.
    rewrite Hf. f_equal.
    destruct (_playing (self w)) eqn:H.
    + rewrite (stop_active w H) in Hc. now inversion Hc.
    + rewrite (stop_inactive w H) in Hc. now inversion Hc.
Qed.

(** C7: [start()] raises exactly when the session is active and [stop()]
    exactly when it is inactive; the raising call leaves the whole state
    as it was; and in any sequence of direct calls the calls that raise
    are those the flag alone predicts. *)
Theorem start_stop_raise_iff_redundant (w : W) (cs : list lifecycle_call) :
  (if _playing (self w)
   then start w = (Raise (PyException "Already playing"), w)
   else fst (start w) = Ok tt) /\
  (if _playing (self w)
   then fst (stop w) = Ok tt
   else stop w = (Raise (PyException "Already stopped"), w)) /\
  map is_ok (fst (run_calls cs w)) = expected_results (_playing (self w)) cs.
Proof.
  split; [| split].
  - destruct (_playing (self w)) eqn:H.
    + exact (start_active w H).
    + now rewrite (start_inactive w H).
  - destruct (_playing (self w)) eqn:H.
    + now rewrite (stop_active w H).
    + exact (stop_inactive w H).
  - apply run_calls_expected.
Qed.

(** C8: writing a boolean to [playing] never raises and leaves the flag
    equal to the value written; writing the current value changes nothing,
    writing the other value is exactly [start()] (for true) or [stop()]
    (for false). *)
Theorem playing_setter_never_raises (w : W) (v : bool) :
  fst (playing_setter v w) = Ok tt /\
  _playing (self (snd (playing_setter v w))) = v /\
  playing_setter v w =
    (if Bool.eqb (_playing (self w)) v then (Ok tt, w)
     else if v then start w else stop w).
Proof.
  unfold playing_setter, bind, get.
  destruct (_playing (self w)) eqn:H, v; cbn [Bool.eqb ret fst snd].
  - auto.
  - rewrite (stop_active w H). auto.
  - rewrite (start_inactive w H). auto.
  - auto.
Qed.

(** The context manager is entered once and, when entering succeeded,
    left once, whatever the body does. *)
Lemma with_stmt_trace (w : W) (body : M W unit) :
  snd (with_stmt body w) =
    if _playing (self w) then [CallEnter]
    else [CallEnter;
          CallExit (match fst (body (snd (start w))) with
                  | Ok _ => None
                  | Raise e => Some e
                  end)].
Proof.
  unfold with_stmt, __enter__, __exit__.
  destruct (_playing (self w)) eqn:H.
  - now rewrite (start_active w H).
  - rewrite (start_inactive w H). cbn [snd].
    match goal with |- context [body ?w1] => destruct (body w1) as [r w2] end.
    now destruct (stop w2) as [[[] | e'] w3].
Qed.

(** C9: the scoped form calls [start()] on entry; when that succeeds and
    the body leaves the session's flag and saved references alone, then
    whether the body returns or raises, [__exit__] (which is [stop()]) is
    called exactly once, it succeeds, the five module slots hold their
    values from before the scope, and the body's own outcome goes on to
    the caller. *)
Theorem with_stmt_stops_once (w : W) (body : M W unit) :
  _playing (self w) = false ->
  _playing (self (snd (body (snd (start w))))) = true ->
  saved (self (snd (body (snd (start w))))) = saved (self (snd (start w))) ->
  __enter__ w = start w /\
  fst (__enter__ w) = Ok tt /\
  snd (with_stmt body w) =
    [CallEnter;
     CallExit (match fst (body (snd (start w))) with
             | Ok _ => None
             | Raise e => Some e
             end)] /\
  fst (with_stmt body w) = (fst (body (snd (start w))),
                            snd (stop (snd (body (snd (start w)))))) /\
  fst (stop (snd (body (snd (start w))))) = Ok tt /\
  pygame (snd (fst (with_stmt body w))) = pygame w /\
  _playing (self (snd (fst (with_stmt body w)))) = false.
Proof.
  intros Hoff Hplay Hsaved.
  pose proof (with_stmt_trace w body) as Htr. rewrite Hoff in Htr.
  unfold with_stmt, __enter__, __exit__ in *.
  rewrite (start_inactive w Hoff) in *. cbn [snd fst] in *.
  match type of Hplay with context [body ?w1] => destruct (body w1) as [r w2] end.
  cbn [snd fst self] in *.
  rewrite saved_save_defaults in Hsaved.
  rewrite (stop_active w2 Hplay) in *. cbn [snd fst pygame self] in *.
  rewrite Hsaved.
  repeat split; try reflexivity; exact Htr.
Qed.

End LifecycleFacts.

(** ** Event synthesis *)

Section EventFacts.

Variables QUIT KEYDOWN KEYUP : Z.

Local Abbreviation poll := (_on_event_get QUIT KEYDOWN KEYUP).
Local Abbreviation step := (filter_step QUIT KEYDOWN KEYUP).
Local Abbreviation down := (key_down_events KEYDOWN).
Local Abbreviation up := (key_up_events KEYUP).

Lemma py_in_In (x : Z) (l : list Z) : py_in x l = true <-> In x l.
Proof.
  unfold py_in. rewrite existsb_exists. split.
  - intros (y & Hy & Heq). apply Z.eqb_eq in Heq. now subst.
  - intros H. exists x. split; [exact H | apply Z.eqb_refl].
Qed.

Lemma filter_not_in (l1 l2 : list Z) :
  filter (fun x => negb (py_in x l2)) l1 = keys_minus l1 l2.
Proof.
  induction l1 as [| x l1 IH]; [reflexivity |].
  cbn [filter keys_minus]. rewrite IH.
  destruct (in_dec Z.eq_dec x l2) as [Hin | Hout].
  - apply py_in_In in Hin. now rewrite Hin.
  - destruct (py_in x l2) eqn:E; [| reflexivity].
    apply py_in_In in E. contradiction.
Qed.

Lemma keys_minus_In (l1 l2 : list Z) (x : Z) :
  In x (keys_minus l1 l2) <-> In x l1 /\ ~ In x l2.
Proof.
  induction l1 as [| y l1 IH]; cbn [keys_minus In].
  - tauto.
  - destruct (in_dec Z.eq_dec y l2) as [Hin | Hout].
    + rewrite IH. split.
      * tauto.
      * intros [[-> | H] Hn]; [contradiction | tauto].
    + cbn [In]. rewrite IH. split.
      * intros [-> | H]; tauto.
      * intros [[-> | H] Hn]; tauto.
Qed.

(** The loop appends, filter after filter, to what it has so far. *)
Lemma fold_filter_step (s : PyGamePlayer) (fs : list pyobj) :
  forall acc, fold_left (step s) fs acc = acc ++ flat_map (step s []) fs.
Proof.
  induction fs as [| f fs IH]; intros acc; cbn [fold_left flat_map].
  - now rewrite app_nil_r.
  - rewrite IH. rewrite app_assoc. f_equal.
    unfold filter_step.
    destruct (eq_int f QUIT); [now rewrite app_nil_r |].
    destruct (eq_int f KEYUP); [reflexivity |].
    destruct (eq_int f KEYDOWN); [reflexivity | now rewrite app_nil_r].
Qed.

Lemma step_int (s : PyGamePlayer) (f : Z) :
  QUIT <> KEYUP -> QUIT <> KEYDOWN ->
  step s [] (PInt f) = spec_filter_events KEYDOWN KEYUP (down s) (up s) f.
Proof.
  intros H1 H2. unfold filter_step, spec_filter_events, eq_int.
  destruct (Z.eq_dec f KEYUP) as [-> | Hu].
  - rewrite Z.eqb_refl.
    destruct (Z.eqb_spec KEYUP QUIT); [congruence | reflexivity].
  - destruct (Z.eq_dec f KEYDOWN) as [-> | Hd].
    + rewrite Z.eqb_refl.
      destruct (Z.eqb_spec KEYDOWN QUIT); [congruence |].
      destruct (Z.eqb_spec KEYDOWN KEYUP); [congruence | reflexivity].
    + destruct (Z.eqb_spec f QUIT); [reflexivity |].
      destruct (Z.eqb_spec f KEYUP); [congruence |].
      destruct (Z.eqb_spec f KEYDOWN); [congruence | reflexivity].
Qed.

Lemma flat_map_step_ints (s : PyGamePlayer) (fs : list Z) :
  QUIT <> KEYUP -> QUIT <> KEYDOWN ->
  flat_map (step s []) (map PInt fs)
  = flat_map (spec_filter_events KEYDOWN KEYUP (down s) (up s)) fs.
Proof.
  intros H1 H2. induction fs as [| f fs IH]; [reflexivity |].
  cbn [map flat_map]. now rewrite IH, step_int.
Qed.

Lemma step_types (s : PyGamePlayer) (o : pyobj) (e : Event) :
  In e (step s [] o) -> etype e = KEYUP \/ etype e = KEYDOWN.
Proof.
  unfold filter_step, key_up_events, key_down_events.
  destruct (eq_int o QUIT); [intros [] |].
  destruct (eq_int o KEYUP).
  - cbn [app]. rewrite in_map_iff. intros (x & <- & _). now left.
  - destruct (eq_int o KEYDOWN); [| intros []].
    cbn [app]. rewrite in_map_iff. intros (x & <- & _). now right.
Qed.

Lemma poll_types (s : PyGamePlayer) (args : list pyobj) (e : Event) :
  In e (poll s args) -> etype e = KEYUP \/ etype e = KEYDOWN.
Proof.
  unfold _on_event_get. destruct args as [| a0 rest].
  - rewrite in_app_iff. unfold key_up_events, key_down_events.
    rewrite !in_map_iff. intros [(x & <- & _) | (x & <- & _)]; auto.
  - rewrite fold_filter_step. cbn [app]. rewrite in_flat_map.
    intros (o & _ & Ho). exact (step_types s o e Ho).
Qed.

(** C2: a poll without a type filter returns the key-down events of the
    keys in [current_keys] that are not in [previous_keys], in their order,
    followed by the key-up events of the keys in [previous_keys] that are
    not in [current_keys], in their order; with [current_keys = [A; B]] and
    [previous_keys = [A]], for two distinct keys, that is one key-down
    event for [B] and nothing else. *)
Theorem poll_without_filter (s : PyGamePlayer) (A B : Z) :
  A <> B ->
  poll s [] =
    map (mkEvent KEYDOWN) (keys_minus (_keys_pressed s) (_last_keys_pressed s))
    ++ map (mkEvent KEYUP) (keys_minus (_last_keys_pressed s) (_keys_pressed s))
  /\ (forall x, In x (keys_minus (_keys_pressed s) (_last_keys_pressed s))
                <-> In x (_keys_pressed s) /\ ~ In x (_last_keys_pressed s))
  /\ (forall x, In x (keys_minus (_last_keys_pressed s) (_keys_pressed s))
                <-> In x (_last_keys_pressed s) /\ ~ In x (_keys_pressed s))
  /\ poll (with_keys [A; B] [A] s) [] = [mkEvent KEYDOWN B].
Proof.
  intros HAB. split; [| split; [| split]].
  - cbn [_on_event_get]. unfold key_down_events, key_up_events.
    now rewrite !filter_not_in.
  - intros x. apply keys_minus_In.
  - intros x. apply keys_minus_In.
  - cbn [_on_event_get]. unfold key_down_events, key_up_events.
    rewrite !filter_not_in. cbn [with_keys _keys_pressed _last_keys_pressed keys_minus].
    destruct (in_dec Z.eq_dec A [A]) as [_ | Hn]; [| exfalso; apply Hn; now left].
    destruct (in_dec Z.eq_dec B [A]) as [[H | []] | _]; [congruence |].
    destruct (in_dec Z.eq_dec A [A; B]) as [_ | Hn]; [| exfalso; apply Hn; now left].
    reflexivity.
Qed.

(** C3: with the three event types distinct, a poll with one filter
    returns what that filter selects, a poll with an iterable of filters
    or with several positional filters returns the concatenation, in the
    order given, of what each selects: nothing for the quit type, the
    key-up events for the key-released type, the key-down events for the
    key-pressed type, nothing for any other type; and no poll at all
    returns an event of the quit type. *)
Theorem poll_with_filters (s : PyGamePlayer) (f : Z) (fs : list Z) (args : list pyobj) :
  QUIT <> KEYUP -> QUIT <> KEYDOWN -> KEYUP <> KEYDOWN ->
  let sel := spec_filter_events KEYDOWN KEYUP (down s) (up s) in
  poll s [PInt f] = sel f /\
  poll s [PSeq (map PInt fs)] = flat_map sel fs /\
  poll s (map PInt (f :: fs)) = flat_map sel (f :: fs) /\
  sel QUIT = [] /\
  sel KEYUP = up s /\
  sel KEYDOWN = down s /\
  (forall g, g <> KEYUP -> g <> KEYDOWN -> sel g = []) /\
  (forall e, In e (poll s args) -> etype e <> QUIT).
Proof.
  intros H1 H2 H3 sel. subst sel.
  repeat match goal with |- _ /\ _ => split end.
  - cbn [_on_event_get fold_left]. now apply step_int.
  - cbn [_on_event_get]. rewrite fold_filter_step. cbn [app].
    now apply flat_map_step_ints.
  - cbn [map _on_event_get]. rewrite fold_filter_step. cbn [app].
    now apply (flat_map_step_ints s (f :: fs)).
  - unfold spec_filter_events.
    destruct (Z.eq_dec QUIT KEYUP); [contradiction |].
    destruct (Z.eq_dec QUIT KEYDOWN); [contradiction | reflexivity].
  - unfold spec_filter_events.
    destruct (Z.eq_dec KEYUP KEYUP); [reflexivity | contradiction].
  - unfold spec_filter_events.
    destruct (Z.eq_dec KEYDOWN KEYUP); [congruence |].
    destruct (Z.eq_dec KEYDOWN KEYDOWN); [reflexivity | contradiction].
  - intros g Hu Hd. unfold spec_filter_events.
    destruct (Z.eq_dec g KEYUP); [contradiction |].
    destruct (Z.eq_dec g KEYDOWN); [contradiction | reflexivity].
  - intros e He Hq. destruct (poll_types s args e He); congruence.
Qed.

(** C10: when the first positional filter argument is an iterable, the
    poll returns what the items of that iterable select, one after the
    other, and every further positional argument contributes nothing. *)
Theorem extra_positional_filters_ignored (s : PyGamePlayer) (items rest : list pyobj) :
  poll s (PSeq items :: rest) = poll s [PSeq items] /\
  poll s (PSeq items :: rest) = flat_map (step s []) items.
Proof.
  split.
  - reflexivity.
  - cbn [_on_event_get]. now rewrite fold_filter_step.
Qed.

End EventFacts.

(** ** Game time and the synthetic clock *)

Section TimeFacts.

Context {Agent Host Frame Feedback : Type}.
Variables QUIT KEYDOWN KEYUP : Z.
Variable native : string -> list pyobj -> M Host value.
Variable array3d : Host -> result Frame.
Variable get_feedback : M Agent Feedback.
Variable get_keys_pressed : Frame -> Feedback -> M Agent (list Z).

Local Abbreviation W := (World Agent Host).
Local Abbreviation invoke' :=
  (invoke QUIT KEYDOWN KEYUP native array3d get_feedback get_keys_pressed).
Local Abbreviation frame := (_on_screen_update array3d get_feedback get_keys_pressed).
Local Abbreviation frames' := (frames array3d get_feedback get_keys_pressed).

Hypothesis array3d_returns : forall h, is_ok (array3d h) = true.
Hypothesis get_feedback_returns : forall a, is_ok (fst (get_feedback a)) = true.
Hypothesis get_keys_pressed_returns :
  forall fr fb a, is_ok (fst (get_keys_pressed fr fb a)) = true.

(** One frame: the keys shift, the agent moves on, and the game time
    grows by the rounded quotient [1000.0 / desired_fps], added in
    binary64. *)
Lemma frame_step (w : W) :
  PrimFloat.eqb (desired_fps (self w)) 0 = false ->
  exists w',
    frame w = (Ok tt, w') /\
    _game_time (self w')
    = PrimFloat.add (_game_time (self w))
                    (PrimFloat.div 1000 (desired_fps (self w))) /\
    desired_fps (self w') = desired_fps (self w) /\
    _last_keys_pressed (self w') = _keys_pressed (self w).
Proof.
  intros Hfps.
  unfold _on_screen_update, bind, on_agent, modify_self, _get_game_time_ms,
    _get_ms_per_frame, get, ret, lift_result, py_truediv.
  pose proof (array3d_returns (host w)) as Ha.
  destruct (array3d (host w)) as [fr | e]; [| discriminate Ha].
  pose proof (get_feedback_returns (agent w)) as Hf.
  destruct (get_feedback (agent w)) as [[fb | e] a1]; [| discriminate Hf].
  cbn [agent].
  pose proof (get_keys_pressed_returns fr fb a1) as Hk.
  destruct (get_keys_pressed fr fb a1) as [[ks | e] a2]; [| discriminate Hk].
  cbn. rewrite Hfps.
  eexists. split; [reflexivity |].
  repeat split; reflexivity.
Qed.

(** C4, as the code has it: when the callbacks return and [desired_fps]
    is not zero, [n] invocations of the frame handler all return, and the
    game time is then the result of adding the binary64 quotient
    [1000.0 / desired_fps] to the starting game time [n] times, each sum
    rounded to binary64; [start], [stop] and the making of a clock leave
    the game time as it is. *)
Theorem frames_accumulate_game_time (n : nat) (w : W) :
  PrimFloat.eqb (desired_fps (self w)) 0 = false ->
  (exists w',
     frames' n w = (Ok tt, w') /\
     _game_time (self w')
     = Nat.iter n (fun t => PrimFloat.add t (PrimFloat.div 1000 (desired_fps (self w))))
                (_game_time (self w)) /\
     desired_fps (self w') = desired_fps (self w)) /\
  _game_time (self (snd (start w))) = _game_time (self w) /\
  _game_time (self (snd (stop w))) = _game_time (self w) /\
  _game_time (self (snd (_on_time_clock w))) = _game_time (self w).
Proof.
  intros Hfps. split.
  - revert w Hfps. induction n as [| n IH]; intros w Hfps.
    + exists w. repeat split; reflexivity.
    + destruct (frame_step w Hfps) as (w1 & Hrun & Htime & Hsame & _).
      assert (Hfps1 : PrimFloat.eqb (desired_fps (self w1)) 0 = false)
        by now rewrite Hsame.
      destruct (IH w1 Hfps1) as (w2 & Hrun2 & Htime2 & Hsame2).
      exists w2. cbn [frames]. unfold bind. rewrite Hrun.
      split; [exact Hrun2 |]. split.
      * rewrite Htime2, Nat.iter_succ_r, Htime, Hsame. reflexivity.
      * now rewrite Hsame2.
  - destruct (_playing (self w)) eqn:Hp.
    + rewrite (start_active w Hp), (stop_active w Hp). repeat split; reflexivity.
    + rewrite (start_inactive w Hp), (stop_inactive w Hp). repeat split; reflexivity.
Qed.

(** C5, as the code has it: the clock that the intercepted constructor
    returns holds, where it expects a function, the float that was the
    game time when the clock was made; [get_time()] and [get_raw_time()]
    call that float and raise TypeError, in every later state.  A clock
    holding the bound method [_get_game_time_ms] instead would return the
    current game time. *)
Theorem synthetic_clock_get_time_raises (oid : nat) (g : func) (args : list pyobj) (w w' : W) :
  invoke' (Wrap oid g m_on_time_clock) args w
  = match invoke' g args w with
    | (Ok _, w1) =>
        (Ok (VClock (mkClock (PBound m_get_ms_per_frame)
                             (PFloat (_game_time (self w1))))), w1)
    | (Raise e, w1) => (Raise e, w1)
    end /\
  _on_time_clock w
  = (Ok (mkClock (PBound m_get_ms_per_frame) (PFloat (_game_time (self w)))), w) /\
  get_time (mkClock (PBound m_get_ms_per_frame) (PFloat (_game_time (self w)))) w'
  = (Raise TypeError, w') /\
  get_raw_time (mkClock (PBound m_get_ms_per_frame) (PFloat (_game_time (self w)))) w'
  = (Raise TypeError, w') /\
  get_time (mkClock (PBound m_get_ms_per_frame) (PBound m_get_game_time_ms)) w'
  = (Ok (_game_time (self w')), w').
Proof.
  split; [| repeat split; reflexivity].
  cbn [invoke]. unfold bind.
  destruct (invoke' g args w) as [[v | e] w1]; reflexivity.
Qed.

End TimeFacts.

(** ** Evaluations on the concrete library *)

(** C4 fails as stated at 60 frames per second after 6 frames: the six
    invocations return, and the game time they leave is the binary64 number
    next above 100, neither the rational [6 * 1000 / 60] nor the float that
    the expression [6 * 1000 / 60] evaluates to. *)
Lemma game_time_not_exact_at_60_fps :
  exists w' q c,
    demo_frames 6 (demo_world 60) = (Ok tt, w') /\
    float_value (_game_time (self w')) = Some q /\
    spec_game_time 60 6 = Some c /\
    ~ (q == c)%Q /\
    _game_time (self w') <> PrimFloat.div (PrimFloat.mul 6 1000) 60.
Proof.
  eexists. eexists. eexists.
  split; [vm_compute; reflexivity |].
  split; [vm_compute; reflexivity |].
  split; [vm_compute; reflexivity |].
  split.
  - intros H. vm_compute in H. discriminate H.
  - intros H. apply (f_equal Prim2SF) in H. vm_compute in H. discriminate H.
Qed.

(** C6, as the code has it: at 10 and at 25 frames per second the
    synthetic clock's [get_fps()] returns 0, where the promised
    [floor(1000 / interval)] is 10 and 25: the code divides 1.0, not
    1000.0, by the interval in milliseconds. *)
Theorem get_fps_returns_zero :
  (exists c,
     _on_time_clock (demo_world 10) = (Ok c, demo_world 10) /\
     get_fps c (demo_world 10) = (Ok 0, demo_world 10)) /\
  spec_get_fps 10 = Ok 10 /\
  (exists c,
     _on_time_clock (demo_world 25) = (Ok c, demo_world 25) /\
     get_fps c (demo_world 25) = (Ok 0, demo_world 25)) /\
  spec_get_fps 25 = Ok 25.
Proof.
  split; [| split; [| split]].
  - eexists. split; vm_compute; reflexivity.
  - vm_compute. reflexivity.
  - eexists. split; vm_compute; reflexivity.
  - vm_compute. reflexivity.
Qed.

(** ** The theorems with hypotheses, applied *)

Lemma start_stop_restores_entry_points_witness :
  _playing (self (demo_world 10)) = false /\
  exists w1 w3,
    start (demo_world 10) = (Ok tt, w1) /\
    stop (demo_host_calls demo_traffic w1) = (Ok tt, w3) /\
    pygame w3 = pristine /\
    (forall e, slot e (pygame w3) = slot e pristine) /\
    (forall e args w', demo_invoke (slot e (pygame w3)) args w'
                       = demo_invoke (slot e pristine) args w').
Proof.
  split; [reflexivity |].
  apply (start_stop_restores_entry_points
           pygame_QUIT pygame_KEYDOWN pygame_KEYUP
           demo_native demo_array3d demo_get_feedback demo_get_keys_pressed
           (demo_world 10) demo_traffic).
  reflexivity.
Defined.

Lemma with_stmt_stops_once_witness :
  _playing (self (demo_world 10)) = false /\
  _playing (self (snd (demo_body (snd (start (demo_world 10)))))) = true /\
  saved (self (snd (demo_body (snd (start (demo_world 10))))))
  = saved (self (snd (start (demo_world 10)))) /\
  snd (with_stmt demo_body (demo_world 10))
  = [CallEnter; CallExit (Some (HostError "game crashed"))] /\
  fst (fst (with_stmt demo_body (demo_world 10))) = Raise (HostError "game crashed") /\
  pygame (snd (fst (with_stmt demo_body (demo_world 10)))) = pristine.
Proof.
  assert (H1 : _playing (self (demo_world 10)) = false) by reflexivity.
  assert (H2 : _playing (self (snd (demo_body (snd (start (demo_world 10)))))) = true)
    by (vm_compute; reflexivity).
  assert (H3 : saved (self (snd (demo_body (snd (start (demo_world 10))))))
               = saved (self (snd (start (demo_world 10))))) by (vm_compute; reflexivity).
  destruct (with_stmt_stops_once (demo_world 10) demo_body H1 H2 H3)
    as (_ & _ & Htrace & Hres & _ & Hslots & _).
  split; [exact H1 |]. split; [exact H2 |]. split; [exact H3 |].
  split; [exact Htrace |].
  split; [rewrite Hres; reflexivity | exact Hslots].
Defined.

Lemma poll_without_filter_witness :
  273 <> 274 /\
  _on_event_get pygame_QUIT pygame_KEYDOWN pygame_KEYUP
    (with_keys [273; 274] [273] (__init__ 10 pristine)) []
  = [mkEvent pygame_KEYDOWN 274].
Proof.
  assert (H : 273 <> 274) by lia.
  split; [exact H |].
  exact (proj2 (proj2 (proj2
    (poll_without_filter pygame_QUIT pygame_KEYDOWN pygame_KEYUP
       (__init__ 10 pristine) 273 274 H)))).
Defined.

Lemma poll_with_filters_witness :
  pygame_QUIT <> pygame_KEYUP /\
  pygame_QUIT <> pygame_KEYDOWN /\
  pygame_KEYUP <> pygame_KEYDOWN /\
  _on_event_get pygame_QUIT pygame_KEYDOWN pygame_KEYUP
    (with_keys [273] [273; 274] (__init__ 10 pristine))
    [PSeq (map PInt [pygame_QUIT; pygame_KEYUP; pygame_KEYDOWN])]
  = [mkEvent pygame_KEYUP 274].
Proof.
  assert (H1 : pygame_QUIT <> pygame_KEYUP) by (unfold pygame_QUIT, pygame_KEYUP; lia).
  assert (H2 : pygame_QUIT <> pygame_KEYDOWN) by (unfold pygame_QUIT, pygame_KEYDOWN; lia).
  assert (H3 : pygame_KEYUP <> pygame_KEYDOWN) by (unfold pygame_KEYUP, pygame_KEYDOWN; lia).
  repeat (split; [assumption |]).
  destruct (poll_with_filters pygame_QUIT pygame_KEYDOWN pygame_KEYUP
              (with_keys [273] [273; 274] (__init__ 10 pristine))
              pygame_QUIT [pygame_QUIT; pygame_KEYUP; pygame_KEYDOWN] [] H1 H2 H3)
    as (_ & Hseq & _).
  rewrite Hseq. reflexivity.
Defined.

Lemma frames_accumulate_game_time_witness :
  PrimFloat.eqb (desired_fps (self (demo_world 10))) 0 = false /\
  exists w',
    demo_frames 3 (demo_world 10) = (Ok tt, w') /\
    _game_time (self w') = 300%float.
Proof.
  assert (H : PrimFloat.eqb (desired_fps (self (demo_world 10))) 0 = false)
    by (vm_compute; reflexivity).
  split; [exact H |].
  destruct (frames_accumulate_game_time
              demo_array3d demo_get_feedback demo_get_keys_pressed
              (fun _ => eq_refl) (fun _ => eq_refl) (fun _ _ _ => eq_refl)
              3 (demo_world 10) H)
    as ((w' & Hrun & Htime & _) & _).
  exists w'. split; [exact Hrun |].
  rewrite Htime. vm_compute. reflexivity.
Defined.

(** ** The frame handler, step by step *)

Section FrameFacts.

Context {Agent Host Frame Feedback : Type}.
Variables QUIT KEYDOWN KEYUP : Z.
Variable native : string -> list pyobj -> M Host value.
Variable array3d : Host -> result Frame.
Variable get_feedback : M Agent Feedback.
Variable get_keys_pressed : Frame -> Feedback -> M Agent (list Z).

Local Abbreviation W := (World Agent Host).
Local Abbreviation frame := (_on_screen_update array3d get_feedback get_keys_pressed).
Local Abbreviation poll := (_on_event_get QUIT KEYDOWN KEYUP).
Local Abbreviation call_entry' :=
  (call_entry QUIT KEYDOWN KEYUP native array3d get_feedback get_keys_pressed).
Local Abbreviation invoke' :=
  (invoke QUIT KEYDOWN KEYUP native array3d get_feedback get_keys_pressed).

(** The frame handler, in the three ways it can go: a callback raises, the
    division raises, or the frame completes. *)
Lemma frame_cases (w : W) :
  frame w =
    match array3d (host w) with
    | Raise e => (Raise e, w)
    | Ok fr =>
        match get_feedback (agent w) with
        | (Raise e, a1) => (Raise e, set_agent a1 w)
        | (Ok fb, a1) =>
            match get_keys_pressed fr fb a1 with
            | (Raise e, a2) => (Raise e, set_agent a2 w)
            | (Ok ks, a2) =>
                let s1 := with_keys ks (_keys_pressed (self w)) (self w) in
                if PrimFloat.eqb (desired_fps (self w)) 0
                then (Raise ZeroDivisionError,
                      mkWorld s1 (pygame w) (next_oid w) a2 (host w))
                else (Ok tt,
                      mkWorld (with_game_time
                                 (PrimFloat.add (_game_time (self w))
                                    (PrimFloat.div 1000 (desired_fps (self w)))) s1)
                              (pygame w) (next_oid w) a2 (host w))
            end
        end
    end.
Proof.
  unfold _on_screen_update, bind, on_agent, modify_self, _get_game_time_ms,
    _get_ms_per_frame, get, ret, lift_result, py_truediv, set_agent.
  destruct (array3d (host w)) as [fr | e]; [| reflexivity].
  destruct (get_feedback (agent w)) as [[fb | e] a1]; [| reflexivity].
  cbn [agent].
  destruct (get_keys_pressed fr fb a1) as [[ks | e] a2]; [| reflexivity].
  cbn. destruct (PrimFloat.eqb (desired_fps (self w)) 0); reflexivity.
Qed.


(** X2: a frame that raises, at a frame rate that is not zero, leaves the
    session object exactly as it was: keys, previous keys and game time
    keep their values, and so do the slots, the object counter and the
    host. *)
Theorem failed_frame_leaves_session (w : W) :
  is_ok (fst (frame w)) = false ->
  PrimFloat.eqb (desired_fps (self w)) 0 = false ->
  self (snd (frame w)) = self w /\
  pygame (snd (frame w)) = pygame w /\
  next_oid (snd (frame w)) = next_oid w /\
  host (snd (frame w)) = host w.
Proof.
  intros Hfail Hfps. rewrite frame_cases in *.
  destruct (array3d (host w)) as [fr | e]; [| now repeat split].
  destruct (get_feedback (agent w)) as [[fb | e] a1]; [| now repeat split].
  destruct (get_keys_pressed fr fb a1) as [[ks | e] a2]; [| now repeat split].
  cbn zeta in Hfail. rewrite Hfps in Hfail. discriminate Hfail.
Qed.

(** X3: with [desired_fps = 0] a frame whose callbacks return raises
    ZeroDivisionError after the keys have been shifted: the keys returned
    are the current keys, the former ones the previous keys, and the game
    time is as it was. *)
Theorem zero_fps_frame_shifts_keys_then_raises
  (w : W) (fr : Frame) (fb : Feedback) (a1 a2 : Agent) (ks : list Z) :
  array3d (host w) = Ok fr ->
  get_feedback (agent w) = (Ok fb, a1) ->
  get_keys_pressed fr fb a1 = (Ok ks, a2) ->
  PrimFloat.eqb (desired_fps (self w)) 0 = true ->
  let after := snd (_on_screen_update array3d get_feedback get_keys_pressed w) in
  fst (_on_screen_update array3d get_feedback get_keys_pressed w)
  = Raise ZeroDivisionError /\
  _keys_pressed (self after) = ks /\
  _last_keys_pressed (self after) = _keys_pressed (self w) /\
  _game_time (self after) = _game_time (self w) /\
  agent after = a2.
Proof.
  intros Ha Hf Hk Hfps after. subst after.
  rewrite frame_cases, Ha, Hf, Hk, Hfps. cbn zeta.
  repeat split; reflexivity.
Qed.

(** X4: with the callbacks of the base class, a frame raises
    NotImplementedError as soon as the surface array is there, and changes
    nothing; a subclass that overrides [get_feedback] alone gets the same
    error from [get_keys_pressed], after its [get_feedback] has run, and
    the session object is not changed either. *)
Theorem base_class_frame_not_implemented (w : W) :
  _on_screen_update array3d
    (@base_get_feedback Agent Feedback) (@base_get_keys_pressed Agent Frame Feedback) w
  = (match array3d (host w) with
     | Ok _ => Raise (NotImplementedError "Please override this method")
     | Raise e => Raise e
     end, w) /\
  _on_screen_update array3d get_feedback (@base_get_keys_pressed Agent Frame Feedback) w
  = match array3d (host w) with
    | Raise e => (Raise e, w)
    | Ok _ =>
        match get_feedback (agent w) with
        | (Ok _, a1) =>
            (Raise (NotImplementedError "Please override this method"), set_agent a1 w)
        | (Raise e, a1) => (Raise e, set_agent a1 w)
        end
    end.
Proof.
  split.
  - unfold _on_screen_update, bind, on_agent, base_get_feedback, raise.
    destruct (array3d (host w)); [| reflexivity]. now destruct w.
  - unfold _on_screen_update, bind, on_agent, base_get_keys_pressed, raise, set_agent.
    destruct (array3d (host w)); [| reflexivity].
    destruct (get_feedback (agent w)) as [[fb | e] a1]; reflexivity.
Qed.

End FrameFacts.

(** ** The intercepted entry points, called through their slots *)

Section InterceptFacts.

Context {Agent Host Frame Feedback : Type}.
Variables QUIT KEYDOWN KEYUP : Z.
Variable native : string -> list pyobj -> M Host value.
Variable array3d : Host -> result Frame.
Variable get_feedback : M Agent Feedback.
Variable get_keys_pressed : Frame -> Feedback -> M Agent (list Z).

Local Abbreviation W := (World Agent Host).
Local Abbreviation frame := (_on_screen_update array3d get_feedback get_keys_pressed).
Local Abbreviation poll := (_on_event_get QUIT KEYDOWN KEYUP).
Local Abbreviation call_entry' :=
  (call_entry QUIT KEYDOWN KEYUP native array3d get_feedback get_keys_pressed).
Local Abbreviation invoke' :=
  (invoke QUIT KEYDOWN KEYUP native array3d get_feedback get_keys_pressed).

(** X5: when a slot holds a closure of the frame handler over a function
    of the library (as [display.flip] and [display.update] do after
    [start()]), a call through the slot runs the library function first,
    on the caller's arguments.  If that raises, the exception goes to the
    caller and the frame handler does not run; otherwise the frame handler
    runs on the host state the library function left, the value the
    library function returned is dropped, and the call returns [None]. *)
Theorem intercepted_present_runs_library_first
  (e : entry) (oid : nat) (name : string) (args : list pyobj) (w : W) :
  slot e (pygame w) = Wrap oid (Native name) m_on_screen_update ->
  call_entry' e args w =
    match native name args (host w) with
    | (Raise ex, h) => (Raise ex, set_host h w)
    | (Ok _, h) =>
        match frame (set_host h w) with
        | (Ok _, w') => (Ok (VObj PNone), w')
        | (Raise ex, w') => (Raise ex, w')
        end
    end.
Proof.
  intros Hslot. unfold call_entry, bind at 1, get. rewrite Hslot.
  cbn [invoke]. unfold bind at 1, on_host, set_host.
  destruct (native name args (host w)) as [[v | ex] h]; [| reflexivity].
  cbn [call_bound]. unfold bind, ret.
  match goal with |- context [frame ?w1] => destruct (frame w1) as [[[] | ex] w'] end;
    reflexivity.
Qed.

(** X6: after [start()], a call of [pygame.time.get_ticks] through its
    slot never returns: the library's own function runs, and when it
    returns, passing its value on to [_get_game_time_ms], which takes no
    argument, raises TypeError. *)
Theorem intercepted_get_ticks_raises (w : W) (args : list pyobj) :
  _playing (self w) = false ->
  fst (call_entry' GetTicks args (snd (start w)))
  = match fst (invoke' (time_get_ticks (pygame w)) args (snd (start w))) with
    | Ok _ => Raise TypeError
    | Raise ex => Raise ex
    end /\
  is_ok (fst (call_entry' GetTicks args (snd (start w)))) = false.
Proof.
  intros Hoff.
  assert (Hcall : call_entry' GetTicks args (snd (start w))
    = match invoke' (time_get_ticks (pygame w)) args (snd (start w)) with
      | (Ok _, w2) => (Raise TypeError, w2)
      | (Raise ex, w2) => (Raise ex, w2)
      end).
  { rewrite (start_inactive w Hoff). cbn [snd].
    unfold call_entry, bind at 1, get. cbn [pygame slot time_get_ticks invoke].
    unfold bind at 1.
    match goal with |- context [invoke' ?g ?a ?w1] =>
      destruct (invoke' g a w1) as [[v | ex] w2] end; reflexivity. }
  rewrite Hcall.
  destruct (invoke' (time_get_ticks (pygame w)) args (snd (start w))) as [[v | ex] w2];
    split; reflexivity.
Qed.

(** X7: polling does not use the synthetic events up.  Through a closure
    of the event handler over a function of the library, the library's
    poll runs (and its events are dropped), the session object stays as it
    is, and a second poll with the same filters returns the same events as
    the first, until a frame changes the keys. *)
Theorem poll_does_not_consume_events
  (oid : nat) (name : string) (args : list pyobj) (w : W) :
  let f := Wrap oid (Native name) m_on_event_get in
  let w1 := snd (invoke' f args w) in
  self w1 = self w /\
  fst (invoke' f args w)
  = match fst (native name args (host w)) with
    | Ok _ => Ok (VEvents (poll (self w) args))
    | Raise ex => Raise ex
    end /\
  fst (invoke' f args w1)
  = match fst (native name args (host w1)) with
    | Ok _ => Ok (VEvents (poll (self w) args))
    | Raise ex => Raise ex
    end.
Proof.
  assert (Hone : forall w0 : W,
    invoke' (Wrap oid (Native name) m_on_event_get) args w0
    = match native name args (host w0) with
      | (Ok _, h) => (Ok (VEvents (poll (self w0) args)), set_host h w0)
      | (Raise ex, h) => (Raise ex, set_host h w0)
      end).
  { intros w0. cbn [invoke]. unfold bind at 1, on_host, set_host.
    destruct (native name args (host w0)) as [[v | ex] h]; reflexivity. }
  cbn zeta.
  assert (Hself : self (snd (invoke' (Wrap oid (Native name) m_on_event_get) args w))
                  = self w).
  { rewrite Hone. now destruct (native name args (host w)) as [[v | ex] h]. }
  split; [exact Hself |]. split.
  - rewrite Hone. now destruct (native name args (host w)) as [[v | ex] h].
  - rewrite (Hone (snd _)), Hself.
    match goal with |- context [native name args ?h0] =>
      now destruct (native name args h0) as [[v | ex] h] end.
Qed.

End InterceptFacts.

(** ** More on event synthesis *)

Section MoreEventFacts.

Variables QUIT KEYDOWN KEYUP : Z.

Local Abbreviation poll := (_on_event_get QUIT KEYDOWN KEYUP).
Local Abbreviation step := (filter_step QUIT KEYDOWN KEYUP).
Local Abbreviation down := (key_down_events KEYDOWN).
Local Abbreviation up := (key_up_events KEYUP).

Lemma keys_minus_covered (l1 l2 : list Z) :
  (forall x, In x l1 -> In x l2) -> keys_minus l1 l2 = [].
Proof.
  induction l1 as [| y l1 IH]; intros H; [reflexivity |].
  cbn [keys_minus].
  destruct (in_dec Z.eq_dec y l2) as [_ | Hout].
  - apply IH. intros x Hx. apply H. now right.
  - exfalso. apply Hout, H. now left.
Qed.

Lemma step_from_key_events (s : PyGamePlayer) (o : pyobj) (e : Event) :
  In e (step s [] o) -> In e (down s) \/ In e (up s).
Proof.
  unfold filter_step.
  destruct (eq_int o QUIT); [intros [] |].
  destruct (eq_int o KEYUP); [now right |].
  destruct (eq_int o KEYDOWN); [now left | intros []].
Qed.

Lemma poll_from_key_events (s : PyGamePlayer) (args : list pyobj) (e : Event) :
  In e (poll s args) -> In e (down s) \/ In e (up s).
Proof.
  unfold _on_event_get. destruct args as [| a0 rest].
  - now rewrite in_app_iff.
  - rewrite fold_filter_step. cbn [app]. rewrite in_flat_map.
    intros (o & _ & Ho). exact (step_from_key_events s o e Ho).
Qed.

(** X8: when the current and the previous keys have the same members (a
    key held from one frame to the next, in whatever order or number),
    every poll, with or without filters, returns no event; so does every
    poll on a session on which no frame has run yet. *)
Theorem unchanged_keys_no_events
  (s : PyGamePlayer) (args : list pyobj) (fps : float) (pg : Pygame) :
  (forall x, In x (_keys_pressed s) <-> In x (_last_keys_pressed s)) ->
  poll s args = [] /\ poll (__init__ fps pg) args = [].
Proof.
  intros Hsame.
  assert (Hnone : forall s0 : PyGamePlayer,
            down s0 = [] -> up s0 = [] -> poll s0 args = []).
  { intros s0 Hd Hu.
    destruct (poll s0 args) as [| e l] eqn:Hp; [reflexivity |].
    destruct (poll_from_key_events s0 args e) as [H | H].
    - rewrite Hp. now left.
    - rewrite Hd in H. destruct H.
    - rewrite Hu in H. destruct H. }
  split.
  - apply Hnone; unfold key_down_events, key_up_events;
      rewrite filter_not_in, keys_minus_covered; try reflexivity;
      intros x Hx; now apply Hsame.
  - apply Hnone; reflexivity.
Qed.

(** X9: filters only select.  Every event that a poll returns, whatever
    its arguments, is one of the events of the poll without a filter; and
    no key is reported as pressed and as released by the same state. *)
Theorem poll_selects_from_key_events (s : PyGamePlayer) (args : list pyobj) :
  incl (poll s args) (poll s []) /\
  forallb (fun e => negb (py_in (key e) (map key (up s)))) (down s) = true.
Proof.
  split.
  - intros e He. cbn [_on_event_get]. rewrite in_app_iff.
    exact (poll_from_key_events s args e He).
  - apply forallb_forall. intros e He.
    destruct (py_in (key e) (map key (up s))) eqn:Hin; [| reflexivity].
    exfalso.
    unfold key_down_events in He. rewrite filter_not_in, in_map_iff in He.
    destruct He as (x & <- & Hx). cbn [key] in Hin.
    apply keys_minus_In in Hx. destruct Hx as [_ Hnot].
    apply py_in_In in Hin. unfold key_up_events in Hin.
    rewrite filter_not_in, map_map in Hin. cbn [key] in Hin.
    rewrite map_id in Hin. apply keys_minus_In in Hin.
    now destruct Hin.
Qed.

(** X10: with the three event types distinct and two distinct keys [A]
    and [B], when [A; B] were the previous keys and [A] alone is current,
    a poll filtered to the key-released type returns one key-up event for
    [B], and a poll filtered to the key-pressed type or to the quit type
    returns nothing. *)
Theorem released_key_seen_by_key_up_filter_only (s : PyGamePlayer) (A B : Z) :
  QUIT <> KEYUP -> QUIT <> KEYDOWN -> KEYUP <> KEYDOWN -> A <> B ->
  poll (with_keys [A] [A; B] s) [PInt KEYUP] = [mkEvent KEYUP B] /\
  poll (with_keys [A] [A; B] s) [PInt KEYDOWN] = [] /\
  poll (with_keys [A] [A; B] s) [PInt QUIT] = [].
Proof.
  intros H1 H2 H3 HAB.
  assert (Hd : down (with_keys [A] [A; B] s) = []).
  { unfold key_down_events. rewrite filter_not_in.
    cbn [with_keys _keys_pressed _last_keys_pressed keys_minus].
    destruct (in_dec Z.eq_dec A [A; B]) as [_ | Hn]; [reflexivity |].
    exfalso. apply Hn. now left. }
  assert (Hu : up (with_keys [A] [A; B] s) = [mkEvent KEYUP B]).
  { unfold key_up_events. rewrite filter_not_in.
    cbn [with_keys _keys_pressed _last_keys_pressed keys_minus].
    destruct (in_dec Z.eq_dec A [A]) as [_ | Hn]; [| exfalso; apply Hn; now left].
    destruct (in_dec Z.eq_dec B [A]) as [[H | []] | _]; [congruence | reflexivity]. }
  cbn [_on_event_get fold_left].
  rewrite !(step_int QUIT KEYDOWN KEYUP _ _ H1 H2), Hd, Hu.
  unfold spec_filter_events.
  destruct (Z.eq_dec KEYUP KEYUP) as [_ | Hn]; [| contradiction].
  destruct (Z.eq_dec KEYDOWN KEYUP) as [Heq | _]; [congruence |].
  destruct (Z.eq_dec KEYDOWN KEYDOWN) as [_ | Hn]; [| contradiction].
  destruct (Z.eq_dec QUIT KEYUP) as [Heq | _]; [contradiction |].
  destruct (Z.eq_dec QUIT KEYDOWN) as [Heq | _]; [contradiction |].
  repeat split; reflexivity.
Qed.

End MoreEventFacts.

(** ** More on the lifecycle *)

Section MoreLifecycleFacts.

Context {Agent Host Frame Feedback : Type}.
Variables QUIT KEYDOWN KEYUP : Z.
Variable native : string -> list pyobj -> M Host value.
Variable array3d : Host -> result Frame.
Variable get_feedback : M Agent Feedback.
Variable get_keys_pressed : Frame -> Feedback -> M Agent (list Z).

Local Abbreviation W := (World Agent Host).
Local Abbreviation frame := (_on_screen_update array3d get_feedback get_keys_pressed).
Local Abbreviation do_action' :=
  (do_action QUIT KEYDOWN KEYUP native array3d get_feedback get_keys_pressed).
Local Abbreviation run_actions' :=
  (run_actions QUIT KEYDOWN KEYUP native array3d get_feedback get_keys_pressed).

Lemma start_keeps_consistent (pg0 : Pygame) (w : W) :
  slots_consistent pg0 w -> slots_consistent pg0 (snd (start w)).
Proof.
  unfold slots_consistent. destruct (_playing (self w)) eqn:Hp.
  - rewrite (start_active w Hp). cbn [snd]. now rewrite Hp.
  - rewrite (start_inactive w Hp). cbn [snd self pygame with_playing _playing].
    intros <-. split.
    + apply saved_save_defaults.
    + now exists (next_oid w).
Qed.

Lemma stop_keeps_consistent (pg0 : Pygame) (w : W) :
  slots_consistent pg0 w -> slots_consistent pg0 (snd (stop w)).
Proof.
  unfold slots_consistent. destruct (_playing (self w)) eqn:Hp.
  - rewrite (stop_active w Hp). cbn [snd self pygame with_playing _playing].
    now intros [Hs _].
  - rewrite (stop_inactive w Hp). cbn [snd]. now rewrite Hp.
Qed.

Lemma playing_setter_cases (v : bool) (w : W) :
  playing_setter v w =
    if Bool.eqb (_playing (self w)) v then (Ok tt, w)
    else if _playing (self w) then stop w else start w.
Proof.
  unfold playing_setter, bind, get.
  destruct (Bool.eqb (_playing (self w)) v); [reflexivity |].
  now destruct (_playing (self w)).
Qed.

Lemma action_keeps_consistent (pg0 : Pygame) (a : action) (w : W) :
  slots_consistent pg0 w -> slots_consistent pg0 (do_action' a w).
Proof.
  intros H. destruct a as [| | v | e args]; cbn [do_action].
  - now apply start_keeps_consistent.
  - now apply stop_keeps_consistent.
  - rewrite playing_setter_cases.
    destruct (Bool.eqb (_playing (self w)) v); [exact H |].
    destruct (_playing (self w)).
    + now apply stop_keeps_consistent.
    + now apply start_keeps_consistent.
  - unfold call_entry, bind, get.
    pose proof (keeps_invoke QUIT KEYDOWN KEYUP native array3d get_feedback
                  get_keys_pressed (slot e (pygame w)) args w) as Hk.
    apply lifecycle_eq in Hk. destruct Hk as (Hplay & Hsaved & Hpg).
    unfold slots_consistent in *. rewrite Hplay, Hsaved, Hpg. exact H.
Qed.

Lemma run_keeps_consistent (pg0 : Pygame) (acts : list action) :
  forall w : W, slots_consistent pg0 w -> slots_consistent pg0 (run_actions' acts w).
Proof.
  unfold run_actions.
  induction acts as [| a acts IH]; intros w H; cbn [fold_left].
  - exact H.
  - apply IH. now apply action_keeps_consistent.
Qed.

(** X11: from an inactive session, whatever mix of [start()], [stop()],
    writes to [playing] and calls through the five slots runs, failing or
    not, the slots are either the library's own, when the session is
    inactive, or one closure over each of them, when it is active, with
    the library's own saved in the session: closures never stack and the
    originals are never lost; one more [stop()] leaves the library's own
    slots in place in either case. *)
Theorem slots_stay_consistent (acts : list action) (w : W) :
  _playing (self w) = false ->
  slots_consistent (pygame w) (run_actions' acts w) /\
  pygame (do_action' DoStop (run_actions' acts w)) = pygame w.
Proof.
  intros Hoff.
  assert (H0 : slots_consistent (pygame w) w)
    by (unfold slots_consistent; now rewrite Hoff).
  pose proof (run_keeps_consistent (pygame w) acts w H0) as Hrun.
  split; [exact Hrun |].
  pose proof (stop_keeps_consistent _ _ Hrun) as Hstop.
  unfold slots_consistent in Hstop. rewrite stop_clears_flag in Hstop.
  exact Hstop.
Qed.

Lemma cycle_inactive (w : W) :
  _playing (self w) = false ->
  pygame (cycle w) = pygame w /\
  _playing (self (cycle w)) = false /\
  next_oid (cycle w) = (5 + next_oid w)%nat.
Proof.
  intros Hoff. unfold cycle. rewrite (start_inactive w Hoff). cbn [snd].
  rewrite stop_active by reflexivity.
  cbn [snd pygame self next_oid with_playing _playing].
  rewrite saved_save_defaults. repeat split; reflexivity.
Qed.

(** X12: [k] rounds of [start()] and [stop()] on an inactive session leave
    the slots as they were and the session inactive, and take five new
    objects each; the next [start()] then wraps the library's own
    functions again, not the closures of an earlier round, in five
    closures that did not exist before. *)
Theorem repeated_cycles_wrap_the_originals (k : nat) (w : W) :
  _playing (self w) = false ->
  pygame (Nat.iter k cycle w) = pygame w /\
  _playing (self (Nat.iter k cycle w)) = false /\
  next_oid (Nat.iter k cycle w) = (5 * k + next_oid w)%nat /\
  pygame (snd (start (Nat.iter k cycle w)))
  = wrapped (5 * k + next_oid w) (pygame w).
Proof.
  intros Hoff.
  assert (H : pygame (Nat.iter k cycle w) = pygame w /\
              _playing (self (Nat.iter k cycle w)) = false /\
              next_oid (Nat.iter k cycle w) = (5 * k + next_oid w)%nat).
  { induction k as [| k (Hpg & Hp & Hn)]; [now repeat split |].
    rewrite !Nat.iter_succ.
    destruct (cycle_inactive _ Hp) as (Hpg' & Hp' & Hn').
    rewrite Hpg', Hp', Hn', Hpg, Hn. repeat split; lia. }
  destruct H as (Hpg & Hp & Hn).
  repeat split; try assumption.
  rewrite (start_inactive _ Hp). cbn [snd pygame].
  rewrite Hpg, Hn. reflexivity.
Qed.

(** X13: reading [playing] changes nothing; after a write of [v] it reads
    [v]; and a second write of the same value changes nothing and does
    not raise. *)
Theorem playing_property_round_trip (w : W) (v : bool) :
  snd (playing w) = w /\
  fst (playing (snd (playing_setter v w))) = Ok v /\
  playing_setter v (snd (playing_setter v w)) = (Ok tt, snd (playing_setter v w)).
Proof.
  assert (Hflag : _playing (self (snd (playing_setter v w))) = v).
  { rewrite playing_setter_cases.
    destruct (_playing (self w)) eqn:Hp, v; cbn [Bool.eqb snd]; try exact Hp.
    - apply stop_clears_flag.
    - apply start_sets_flag. }
  split; [reflexivity |]. split.
  - unfold playing, bind, get, ret. cbn [fst]. now rewrite Hflag.
  - rewrite (playing_setter_cases v (snd _)), Hflag.
    now rewrite Bool.eqb_reflx.
Qed.

(** X14: entering the scoped form on a session that is already active
    raises "Already playing"; the body does not run, [__exit__] is not
    called, and the session stays active with its closures in place. *)
Theorem with_on_active_session_raises (w : W) (body : M W unit) :
  _playing (self w) = true ->
  with_stmt body w = ((Raise (PyException "Already playing"), w), [CallEnter]).
Proof.
  intros Hon. unfold with_stmt, __enter__. now rewrite (start_active w Hon).
Qed.

(** X15: when the body of the scoped form leaves the session inactive (it
    called [stop()] itself), [__exit__] raises "Already stopped": that
    exception is what the caller gets, in place of the body's own result
    or exception, and the state is the one the body left. *)
Theorem with_body_that_stops_raises (w : W) (body : M W unit) :
  _playing (self w) = false ->
  _playing (self (snd (body (snd (start w))))) = false ->
  fst (with_stmt body w)
  = (Raise (PyException "Already stopped"), snd (body (snd (start w)))).
Proof.
  intros Hoff Hbody. unfold with_stmt, __enter__, __exit__.
  rewrite (start_inactive w Hoff) in *. cbn [snd] in *.
  match type of Hbody with context [body ?w1] => destruct (body w1) as [r w2] end.
  cbn [snd] in Hbody. now rewrite (stop_inactive w2 Hbody).
Qed.

(** X16: [tick()] and [tick_busy_loop()] of a clock of the session do not
    wait and change nothing; before a frame that completes, both return
    the very amount by which that frame advances the game time, at the
    [desired_fps] of the moment of the call. *)
Theorem tick_returns_frame_increment (w w' : W) (c : FixedFPSClock) :
  fst (_on_time_clock w) = Ok c ->
  is_ok (fst (frame w')) = true ->
  exists ms,
    tick c w' = (Ok ms, w') /\
    tick_busy_loop c w' = (Ok ms, w') /\
    ms = PrimFloat.div 1000 (desired_fps (self w')) /\
    _game_time (self (snd (frame w'))) = PrimFloat.add (_game_time (self w')) ms.
Proof.
  intros Hc Hframe. cbn in Hc. injection Hc as <-.
  exists (PrimFloat.div 1000 (desired_fps (self w'))).
  rewrite frame_cases in *.
  unfold tick, tick_busy_loop, call0, _get_ms_per_frame, bind, get, lift_result,
    py_truediv. cbn [_get_ms_per_frame_func].
  destruct (array3d (host w')) as [fr | e]; [| discriminate Hframe].
  destruct (get_feedback (agent w')) as [[fb | e] a1]; [| discriminate Hframe].
  destruct (get_keys_pressed fr fb a1) as [[ks | e] a2]; [| discriminate Hframe].
  cbn zeta in *.
  destruct (PrimFloat.eqb (desired_fps (self w')) 0); [discriminate Hframe |].
  repeat split; reflexivity.
Qed.

End MoreLifecycleFacts.

(** ** The further theorems with hypotheses, applied *)


Lemma failed_frame_leaves_session_witness :
  is_ok (fst (base_frame (demo_world 10))) = false /\
  self (snd (base_frame (demo_world 10))) = __init__ 10 pristine.
Proof.
  split; [reflexivity |].
  exact (proj1 (failed_frame_leaves_session demo_array3d
                  (@base_get_feedback unit Z) (@base_get_keys_pressed unit unit Z)
                  (demo_world 10) eq_refl eq_refl)).
Defined.

Lemma zero_fps_frame_shifts_keys_then_raises_witness :
  fst (_on_screen_update demo_array3d demo_get_feedback demo_get_keys_pressed
         (demo_world 0)) = Raise ZeroDivisionError /\
  _keys_pressed
    (self (snd (_on_screen_update demo_array3d demo_get_feedback demo_get_keys_pressed
                  (demo_world 0)))) = [274].
Proof.
  destruct (zero_fps_frame_shifts_keys_then_raises
              demo_array3d demo_get_feedback demo_get_keys_pressed
              (demo_world 0) tt 0 tt tt [274]
              eq_refl eq_refl eq_refl eq_refl) as (Hraise & Hkeys & _).
  split; [exact Hraise | exact Hkeys].
Defined.

Lemma intercepted_present_runs_library_first_witness :
  slot Flip (pygame (snd (start (demo_world 10))))
  = Wrap 0 (Native "pygame.display.flip") m_on_screen_update /\
  call_entry pygame_QUIT pygame_KEYDOWN pygame_KEYUP
    demo_native demo_array3d demo_get_feedback demo_get_keys_pressed
    Flip [] (snd (start (demo_world 10)))
  = (Ok (VObj PNone),
     snd (_on_screen_update demo_array3d demo_get_feedback demo_get_keys_pressed
            (snd (start (demo_world 10))))).
Proof.
  split; [reflexivity |].
  exact (intercepted_present_runs_library_first
           pygame_QUIT pygame_KEYDOWN pygame_KEYUP
           demo_native demo_array3d demo_get_feedback demo_get_keys_pressed
           Flip 0%nat "pygame.display.flip" [] (snd (start (demo_world 10))) eq_refl).
Defined.

Lemma intercepted_get_ticks_raises_witness :
  _playing (self (demo_world 10)) = false /\
  fst (call_entry pygame_QUIT pygame_KEYDOWN pygame_KEYUP
         demo_native demo_array3d demo_get_feedback demo_get_keys_pressed
         GetTicks [] (snd (start (demo_world 10))))
  = Raise TypeError.
Proof.
  split; [reflexivity |].
  exact (proj1 (intercepted_get_ticks_raises
                  pygame_QUIT pygame_KEYDOWN pygame_KEYUP
                  demo_native demo_array3d demo_get_feedback demo_get_keys_pressed
                  (demo_world 10) [] eq_refl)).
Defined.

Lemma unchanged_keys_no_events_witness :
  (forall x, In x [273; 274] <-> In x [274; 273; 273]) /\
  _on_event_get pygame_QUIT pygame_KEYDOWN pygame_KEYUP
    (with_keys [273; 274] [274; 273; 273] (__init__ 10 pristine)) [PInt pygame_KEYUP]
  = [].
Proof.
  assert (H : forall x, In x [273; 274] <-> In x [274; 273; 273])
    by (intros x; simpl; lia).
  split; [exact H |].
  exact (proj1 (unchanged_keys_no_events pygame_QUIT pygame_KEYDOWN pygame_KEYUP
                  (with_keys [273; 274] [274; 273; 273] (__init__ 10 pristine))
                  [PInt pygame_KEYUP] 10 pristine H)).
Defined.

Lemma released_key_seen_by_key_up_filter_only_witness :
  pygame_QUIT <> pygame_KEYUP /\
  pygame_QUIT <> pygame_KEYDOWN /\
  pygame_KEYUP <> pygame_KEYDOWN /\
  273 <> 274 /\
  _on_event_get pygame_QUIT pygame_KEYDOWN pygame_KEYUP
    (with_keys [273] [273; 274] (__init__ 10 pristine)) [PInt pygame_KEYUP]
  = [mkEvent pygame_KEYUP 274].
Proof.
  assert (H1 : pygame_QUIT <> pygame_KEYUP) by (unfold pygame_QUIT, pygame_KEYUP; lia).
  assert (H2 : pygame_QUIT <> pygame_KEYDOWN) by (unfold pygame_QUIT, pygame_KEYDOWN; lia).
  assert (H3 : pygame_KEYUP <> pygame_KEYDOWN) by (unfold pygame_KEYUP, pygame_KEYDOWN; lia).
  assert (H4 : 273 <> 274) by lia.
  repeat (split; [assumption |]).
  exact (proj1 (released_key_seen_by_key_up_filter_only
                  pygame_QUIT pygame_KEYDOWN pygame_KEYUP
                  (__init__ 10 pristine) 273 274 H1 H2 H3 H4)).
Defined.

Lemma slots_stay_consistent_witness :
  _playing (self (demo_world 10)) = false /\
  pygame (do_action pygame_QUIT pygame_KEYDOWN pygame_KEYUP
            demo_native demo_array3d demo_get_feedback demo_get_keys_pressed
            DoStop
            (run_actions pygame_QUIT pygame_KEYDOWN pygame_KEYUP
               demo_native demo_array3d demo_get_feedback demo_get_keys_pressed
               demo_actions (demo_world 10)))
  = pygame (demo_world 10).
Proof.
  split; [reflexivity |].
  exact (proj2 (slots_stay_consistent
                  pygame_QUIT pygame_KEYDOWN pygame_KEYUP
                  demo_native demo_array3d demo_get_feedback demo_get_keys_pressed
                  demo_actions (demo_world 10) eq_refl)).
Defined.

Lemma repeated_cycles_wrap_the_originals_witness :
  _playing (self (demo_world 10)) = false /\
  pygame (snd (start (Nat.iter 3 cycle (demo_world 10)))) = wrapped 15 pristine.
Proof.
  split; [reflexivity |].
  exact (proj2 (proj2 (proj2
    (repeated_cycles_wrap_the_originals 3 (demo_world 10) eq_refl)))).
Defined.

Lemma with_on_active_session_raises_witness :
  _playing (self (snd (start (demo_world 10)))) = true /\
  with_stmt demo_body (snd (start (demo_world 10)))
  = ((Raise (PyException "Already playing"), snd (start (demo_world 10))), [CallEnter]).
Proof.
  split; [reflexivity |].
  exact (with_on_active_session_raises (snd (start (demo_world 10))) demo_body eq_refl).
Defined.

Lemma with_body_that_stops_raises_witness :
  _playing (self (demo_world 10)) = false /\
  _playing (self (snd (stop (snd (start (demo_world 10)))))) = false /\
  fst (fst (with_stmt stop (demo_world 10))) = Raise (PyException "Already stopped").
Proof.
  split; [reflexivity |]. split; [reflexivity |].
  exact (f_equal fst (with_body_that_stops_raises (demo_world 10) stop eq_refl eq_refl)).
Defined.

Lemma tick_returns_frame_increment_witness :
  exists ms,
    tick (mkClock (PBound m_get_ms_per_frame) (PFloat 0)) (demo_world 25)
    = (Ok ms, demo_world 25) /\
    ms = 40%float.
Proof.
  destruct (tick_returns_frame_increment
              demo_array3d demo_get_feedback demo_get_keys_pressed
              (demo_world 25) (demo_world 25)
              (mkClock (PBound m_get_ms_per_frame) (PFloat 0))
              eq_refl eq_refl) as (ms & Htick & _ & Hms & _).
  exists ms. split; [exact Htick | exact Hms].
Defined.

Lemma poll_selects_from_key_events_witness :
  incl (_on_event_get pygame_QUIT pygame_KEYDOWN pygame_KEYUP
          (with_keys [273] [274] (__init__ 10 pristine)) [PInt pygame_KEYUP])
       (_on_event_get pygame_QUIT pygame_KEYDOWN pygame_KEYUP
          (with_keys [273] [274] (__init__ 10 pristine)) []).
Proof.
  exact (proj1 (poll_selects_from_key_events pygame_QUIT pygame_KEYDOWN pygame_KEYUP
                  (with_keys [273] [274] (__init__ 10 pristine)) [PInt pygame_KEYUP])).
Defined.
